(** * generate_config.py: the note index generator

    A shallow embedding of [generate_config.py] and the properties of its
    three functions: [parse_markdown_front_matter], [build_config_from_notes]
    and [main].

    Conventions of the embedding.
    - A Python [str] is a [string]: the UTF-8 bytes of the text.  Comparing
      two such strings byte by byte is comparing them code point by code
      point, which is the order [sorted] uses.
      The characters the script looks for ([-], [.], [/], the backslash,
      the letters of [.md]) are ASCII, so looking for them among the bytes
      is looking for them among the code points; [str.lower] is modelled
      on the ASCII letters, no other character lowers to [.], [m] or [d].
    - A Python value (what [yaml.safe_load] returns and [json.dump] prints)
      is a [value], a tree; a [dict] is the list of its items in insertion
      order.  A document whose aliases make a value a part of itself is
      outside the model.
    - A raised exception is the [Raise] result of a computation of type
      [py A]; [try ... except Exception] is [try_except_Exception].
    - [yaml.safe_load] belongs to PyYAML, not to this program: it is a
      parameter of the development.
    - [os.path] is [posixpath].
    - The file system is a finite map from paths to nodes. *)

From Stdlib Require Import ZArith Ascii String List Sorted Permutation Lia.
From stdpp Require Import base option list gmap strings sorting pretty.

Local Open Scope string_scope.
Local Open Scope list_scope.

(** ** Strings: the [str] methods the script calls *)

Module Str.

(** The line feed. *)
Definition newline : string := String (ascii_of_nat 10) "".

(** [s.startswith(p)]. *)
Definition startswith (s p : string) : bool := String.prefix p s.

(** [s[:n]] and [s[n:]] for [0 <= n]. *)
Fixpoint take (n : nat) (s : string) : string :=
  match n, s with
  | S n', String c s' => String c (take n' s')
  | _, _ => ""
  end.

Fixpoint drop (n : nat) (s : string) : string :=
  match n, s with
  | S n', String _ s' => drop n' s'
  | _, _ => s
  end.

(** [s.find(sep)]: the lowest index where [sep] occurs, [None] for -1. *)
Fixpoint find (s sep : string) : option nat :=
  if String.prefix sep s then Some 0
  else match s with
       | "" => None
       | String _ s' => S <$> find s' sep
       end.

(** [s.split(sep, maxsplit)] for a non-empty [sep] and [0 <= maxsplit]:
    cut at the leftmost occurrence, skip the separator, go on with what
    is left, at most [maxsplit] times. *)
Fixpoint split (s sep : string) (maxsplit : nat) : list string :=
  match maxsplit with
  | 0 => [s]
  | S k =>
      match find s sep with
      | None => [s]
      | Some i => take i s :: split (drop (i + String.length sep) s) sep k
      end
  end.

(** [s.lower()], on the ASCII letters. *)
Definition lower_char (c : ascii) : ascii :=
  let n := nat_of_ascii c in
  if (65 <=? n)%nat && (n <=? 90)%nat then ascii_of_nat (n + 32) else c.

Fixpoint lower (s : string) : string :=
  match s with
  | "" => ""
  | String c s' => String (lower_char c) (lower s')
  end.

(** [s.endswith(suf)]. *)
Definition endswith (s suf : string) : bool :=
  (String.length suf <=? String.length s)%nat
  && String.eqb (drop (String.length s - String.length suf) s) suf.

(** [s.replace(old, new)] where [old] and [new] are one character each. *)
Fixpoint replace_char (old new : ascii) (s : string) : string :=
  match s with
  | "" => ""
  | String c s' =>
      String (if Ascii.eqb c old then new else c) (replace_char old new s')
  end.

(** [s.rfind(c)] for a character [c]: the highest index, or -1. *)
Fixpoint rfind_from (i : Z) (s : string) (c : ascii) : Z :=
  match s with
  | "" => (-1)%Z
  | String a s' =>
      let r := rfind_from (i + 1) s' c in
      if (0 <=? r)%Z then r else if Ascii.eqb a c then i else (-1)%Z
  end.

Definition rfind (s : string) (c : ascii) : Z := rfind_from 0 s c.

(** [c in s] for a character [c]. *)
Fixpoint mem_char (c : ascii) (s : string) : bool :=
  match s with
  | "" => false
  | String a s' => Ascii.eqb a c || mem_char c s'
  end.

End Str.

(** ** [os.path] (the POSIX flavour) *)

Module OsPath.

Definition sep : ascii := "/"%char.
Definition extsep : ascii := "."%char.

(** [posixpath.join(a, b)]. *)
Definition join (a b : string) : string :=
  if Str.startswith b "/" then b
  else if String.eqb a "" || Str.endswith a "/" then a +:+ b
  else a +:+ "/" +:+ b.

(** The loop of [genericpath._splitext] that skips the leading dots of
    the last component: [true] when a character of [p] at an index in
    [filenameIndex, dotIndex) is not a dot.  [steps] bounds the number of
    iterations, which is [dotIndex - filenameIndex]. *)
Fixpoint has_stem (steps : nat) (p : string) (filenameIndex : nat) : bool :=
  match steps with
  | 0 => false
  | S k =>
      match String.get filenameIndex p with
      | Some c =>
          if Ascii.eqb c extsep then has_stem k p (S filenameIndex) else true
      | None => true
      end
  end.

(** [os.path.splitext(p)]. *)
Definition splitext (p : string) : string * string :=
  let sepIndex := Str.rfind p sep in
  let dotIndex := Str.rfind p extsep in
  if (sepIndex <? dotIndex)%Z
     && has_stem (Z.to_nat (dotIndex - (sepIndex + 1)))
                 p (Z.to_nat (sepIndex + 1))
  then (Str.take (Z.to_nat dotIndex) p, Str.drop (Z.to_nat dotIndex) p)
  else (p, "").

End OsPath.

(** ** Python values *)

#[warnings="-register-all"]
Inductive value : Type :=
| PNone
| PBool (b : bool)
| PInt (n : Z)
| PFloat (text : string)        (* a float, carried by the text JSON has for it *)
| PStr (s : string)
| PList (l : list value)
| PDict (items : list (value * value))
| PObject (type_name : string). (* a date, a set, bytes, ... *)

(** A [dict]: its items in insertion order. *)
Abbreviation dict := (list (value * value)).

Definition isinstance_str (v : value) : bool :=
  match v with PStr _ => true | _ => false end.

Definition isinstance_list (v : value) : bool :=
  match v with PList _ => true | _ => false end.

Definition isinstance_dict (v : value) : bool :=
  match v with PDict _ => true | _ => false end.

(** A key is equal to the [str] [k] only when it is that [str]. *)
Definition key_is (k : string) (key : value) : bool :=
  match key with PStr s => String.eqb s k | _ => false end.

(** [d.get(k)] for a [str] key: the value, or [None]. *)
Fixpoint dict_get (d : dict) (k : string) : value :=
  match d with
  | [] => PNone
  | (key, v) :: d' => if key_is k key then v else dict_get d' k
  end.

(** ** Exceptions *)

(** The classes below [Exception] that can reach the script. *)
Inductive exception : Type :=
| YAMLError
| RecursionError
| ValueError
| TypeError
| FileNotFoundError
| NotADirectoryError
| IsADirectoryError
| UnicodeDecodeError.

(** [BaseException]: an [Exception], or [SystemExit] with its argument. *)
Inductive base_exception : Type :=
| Exception (e : exception)
| SystemExit (msg : string).

Inductive outcome (E A : Type) : Type :=
| Return (a : A)
| Raise (e : E).
Arguments Return {E A} a.
Arguments Raise {E A} e.

Abbreviation py A := (outcome base_exception A).

Definition bind {E A B} (m : outcome E A) (f : A -> outcome E B)
  : outcome E B :=
  match m with
  | Return a => f a
  | Raise e => Raise e
  end.

Notation "x <- m ;; k" := (bind m (fun x => k))
  (at level 100, m at next level, right associativity).

(** A library call that raises an [Exception], seen from the script. *)
Definition call {A} (m : outcome exception A) : py A :=
  match m with
  | Return a => Return a
  | Raise e => Raise (Exception e)
  end.

(** [try: body  except Exception: handler]. *)
Definition try_except_Exception {A} (body handler : py A) : py A :=
  match body with
  | Raise (Exception _) => handler
  | r => r
  end.

(** ** [json.dump(obj, f, ensure_ascii=False, indent=2)]

    The encoder writes its output piece by piece; when it raises, what it
    wrote before stays in the file.  A [written] is the text written and
    the exception that stopped the writing, if one did. *)

Abbreviation written := (string * option exception)%type.

Definition emit (s : string) : written := (s, None).

Definition seq (a b : written) : written :=
  match a with
  | (s, None) => (s +:+ b.1, b.2)
  | (_, Some _) => a
  end.

Infix ">>" := seq (at level 61, left associativity).

Module Json.

Definition newline : string := Str.newline.

Definition quote : string := String (ascii_of_nat 34) "".

Definition hex_digit (n : nat) : ascii :=
  if (n <? 10)%nat then ascii_of_nat (48 + n) else ascii_of_nat (87 + n).

(** The escapes of [encode_basestring]: the quote, the backslash and the
    characters below 0x20; every other character is kept. *)
Definition escape_char (c : ascii) : string :=
  let n := nat_of_ascii c in
  if (n =? 34)%nat then "\" +:+ quote
  else if (n =? 92)%nat then "\\"
  else if (n =? 8)%nat then "\b"
  else if (n =? 12)%nat then "\f"
  else if (n =? 10)%nat then "\n"
  else if (n =? 13)%nat then "\r"
  else if (n =? 9)%nat then "\t"
  else if (n <? 32)%nat then
    "\u00" +:+ String (hex_digit (n / 16)) (String (hex_digit (n mod 16)) "")
  else String c "".

Fixpoint escape (s : string) : string :=
  match s with
  | "" => ""
  | String c s' => escape_char c +:+ escape s'
  end.

Definition encode_basestring (s : string) : string :=
  quote +:+ escape s +:+ quote.

(** [_indent * level], with [_indent] two spaces. *)
Fixpoint indent (level : nat) : string :=
  match level with
  | 0 => ""
  | S k => "  " +:+ indent k
  end.

Definition newline_indent (level : nat) : string := newline +:+ indent level.

(** The text of a key of a [dict]: a [str] as it is, a number, a
    boolean or [None] by its JSON text; no other key is accepted. *)
Definition key_text (key : value) : option string :=
  match key with
  | PStr s => Some s
  | PFloat t => Some t
  | PBool true => Some "true"
  | PBool false => Some "false"
  | PNone => Some "null"
  | PInt n => Some (pretty n)
  | _ => None
  end.

(** [_iterencode], with [_iterencode_list] and [_iterencode_dict]. *)
Fixpoint iterencode (o : value) (level : nat) : written :=
  match o with
  | PStr s => emit (encode_basestring s)
  | PNone => emit "null"
  | PBool true => emit "true"
  | PBool false => emit "false"
  | PInt n => emit (pretty n)
  | PFloat t => emit t
  | PList [] => emit "[]"
  | PList (first :: lst) =>
      emit "[" >> emit (newline_indent (S level))
      >> iterencode first (S level)
      >> (fix items (l : list value) : written :=
            match l with
            | [] => emit ""
            | v :: l' =>
                emit ("," +:+ newline_indent (S level))
                >> iterencode v (S level) >> items l'
            end) lst
      >> emit (newline_indent level) >> emit "]"
  | PDict [] => emit "{}"
  | PDict dct =>
      emit "{" >> emit (newline_indent (S level))
      >> (fix items (first : bool) (l : list (value * value)) : written :=
            match l with
            | [] => emit ""
            | (key, v) :: l' =>
                match key_text key with
                | None => ("", Some TypeError)
                | Some k =>
                    emit (if first then ""
                          else "," +:+ newline_indent (S level))
                    >> emit (encode_basestring k) >> emit ": "
                    >> iterencode v (S level) >> items false l'
                end
            end) true dct
      >> emit (newline_indent level) >> emit "}"
  | PObject _ => ("", Some TypeError)
  end.

Definition dump (obj : value) : written := iterencode obj 0.

(** One key of a [dict] and its value, as they are written. *)
Definition member (level : nat) (k : string) (v : value) : written :=
  emit (encode_basestring k) >> emit ": " >> iterencode v (S level).

(** What is written between two items. *)
Definition item_separator (level : nat) : string :=
  "," +:+ newline_indent (S level).




End Json.

(** ** The file system *)

(** A file holds the text [read()] returns; [Binary] is a file whose
    bytes are not UTF-8 text. *)
Inductive node : Type :=
| File (text : string)
| Binary
| Directory (entries : list string).

(** [os.path.isdir(path)]. *)
Definition isdir (fs : gmap string node) (path : string) : bool :=
  match fs !! path with
  | Some (Directory _) => true
  | _ => false
  end.

(** [os.listdir(path)], the names in the order of the system. *)
Definition listdir (fs : gmap string node) (path : string)
  : py (list string) :=
  match fs !! path with
  | Some (Directory entries) => Return entries
  | Some _ => Raise (Exception NotADirectoryError)
  | None => Raise (Exception FileNotFoundError)
  end.

(** [open(path, 'r', encoding='utf-8')] followed by [f.read()]. *)
Definition read_text (fs : gmap string node) (path : string) : py string :=
  match fs !! path with
  | Some (File text) => Return text
  | Some Binary => Raise (Exception UnicodeDecodeError)
  | Some (Directory _) => Raise (Exception IsADirectoryError)
  | None => Raise (Exception FileNotFoundError)
  end.

(** [sorted] on a list of [str]: a stable merge sort by [<=]. *)
Definition sorted (l : list string) : list string :=
  merge_sort String.le l.

(** ** What the specification says

    Three sentences of the specification, written down as they read, to be
    compared with what the script does. *)

Module Claimed.



(** The fields of a record, in the order of the data model. *)
Definition field_order : list string :=
  ["id"; "title"; "tags"; "links"; "file"].

(** The lines of a text. *)
Fixpoint lines (s : string) : list string :=
  match s with
  | "" => [""]
  | String c s' =>
      if Ascii.eqb c (ascii_of_nat 10) then "" :: lines s'
      else match lines s' with
           | l :: ls => String c l :: ls
           | [] => [String c ""]
           end
  end.

(** The lines before the first line that is [---] and nothing else. *)
Fixpoint block (ls : list string) : option (list string) :=
  match ls with
  | [] => None
  | l :: ls' => if String.eqb l "---" then Some [] else (l ::.) <$> block ls'
  end.

(** The front matter is there when the first line is [---] and a later
    line is [---]; it is the lines in between. *)
Definition front_matter_text (content : string) : option string :=
  match lines content with
  | first :: rest =>
      if String.eqb first "---"
      then (fun b => String.concat "" ((fun l => l +:+ Str.newline) <$> b))
             <$> block rest
      else None
  | [] => None
  end.

Definition front_matter (load : string -> outcome exception value)
    (content : string) : dict :=
  match front_matter_text content with
  | Some fm_text =>
      match load fm_text with
      | Return (PDict d) => d
      | _ => []
      end
  | None => []
  end.

End Claimed.

(** ** A directory of notes, for the examples *)

Module Sample.

(** A loader that knows the documents of a table and takes any other text
    for malformed. *)
Fixpoint table_load (table : list (string * value)) (text : string)
  : outcome exception value :=
  match table with
  | [] => Raise YAMLError
  | (doc, v) :: table' =>
      if String.eqb doc text then Return v else table_load table' text
  end.

Definition a_meta : dict :=
  [ (PStr "id", PStr "alpha");
    (PStr "title", PStr "Alpha");
    (PStr "tags", PList [PStr "x"; PInt 1]);
    (PStr "links", PList [PStr "beta"]) ].

Definition a_front_matter : string :=
  Str.newline +:+ "id: alpha" +:+ Str.newline
  +:+ "title: Alpha" +:+ Str.newline
  +:+ "tags: [x, 1]" +:+ Str.newline
  +:+ "links: [beta]" +:+ Str.newline.

Definition documents : list (string * value) :=
  [ (a_front_matter, PDict a_meta);
    (Str.newline +:+ "title: a", PDict [(PStr "title", PStr "a")]);
    ("title: a---b" +:+ Str.newline, PDict [(PStr "title", PStr "a---b")]);
    ("x: 1" +:+ Str.newline, PDict [(PStr "x", PInt 1)]) ].

Definition safe_load : string -> outcome exception value :=
  table_load documents.

Definition a_md : string :=
  "---" +:+ a_front_matter +:+ "---" +:+ Str.newline +:+ "# Alpha".

(** A [---] inside a value. *)
Definition dashes_in_value : string :=
  "---" +:+ Str.newline +:+ "title: a---b" +:+ Str.newline
  +:+ "---" +:+ Str.newline.

(** A first line that is more than [---]. *)
Definition dashes_in_first_line : string :=
  "---x: 1" +:+ Str.newline +:+ "---" +:+ Str.newline.

Definition entries : list string := ["a.md"; "B.MD"; "c.txt"].

Definition fs : gmap string node :=
  <["notes" := Directory entries]>
  (<["notes/a.md" := File a_md]>
  (<["notes/B.MD" := File "# B"]>
  (<["notes/c.txt" := File "not a note"]>
  (<["config.json" := File "stale"]> ∅)))).

(** The same directory, listed in another order, and no [config.json]. *)
Definition fs' : gmap string node :=
  <["notes" := Directory ["B.MD"; "a.md"; "c.txt"]]>
  (<["notes/a.md" := File a_md]>
  (<["notes/B.MD" := File "# B"]>
  (<["notes/c.txt" := File "not a note"]> ∅))).

(** A note that is no text, after one that is. *)
Definition fs_unreadable : gmap string node :=
  <["notes" := Directory ["z.md"; "a.md"; "m.md"]]>
  (<["notes/a.md" := File a_md]>
  (<["notes/m.md" := Binary]>
  (<["config.json" := File "stale"]> ∅))).

(** A directory with no note in it. *)
Definition fs_no_md : gmap string node :=
  <["notes" := Directory ["readme.txt"; "img"]]>
  (<["notes/img" := Directory []]>
  (<["config.json" := File "stale"]> ∅)).





(** No directory [notes]. *)
Definition fs_without_notes : gmap string node :=
  <["config.json" := File "stale"]> ∅.

Definition notes : list value :=
  [ PDict [ (PStr "id", PStr "B"); (PStr "title", PStr "B");
            (PStr "tags", PList []); (PStr "file", PStr "notes/B.MD");
            (PStr "links", PList []) ];
    PDict [ (PStr "id", PStr "alpha"); (PStr "title", PStr "Alpha");
            (PStr "tags", PList [PStr "x"; PInt 1]);
            (PStr "file", PStr "notes/a.md");
            (PStr "links", PList [PStr "beta"]) ] ].

End Sample.

(** ** The script *)

Section Script.

(** [yaml.safe_load]: the parsed document, or the exception raised. *)
Variable safe_load : string -> outcome exception value.

(** The two outer segments of [content.split('---', 2)] are unused; the
    unpacking [_, fm_text, _ = parts] raises [ValueError] unless there
    are three segments. *)
Definition parse_markdown_front_matter (content : string) : py dict :=
  if negb (Str.startswith content "---") then Return []
  else
    try_except_Exception
      (let parts := Str.split content "---" 2 in
       if (length parts <? 3)%nat then Return []
       else
         match parts with
         | [_; fm_text; _] =>
             meta <- call (safe_load fm_text) ;;
             Return (match meta with PDict d => d | _ => [] end)
         | _ => Raise (Exception ValueError)
         end)
      (Return []).

(** The body of the loop of [build_config_from_notes] after the file is
    read: the fields, then the record, a [dict] written as a literal. *)
Definition note_record (notes_dir filename : string) (meta : dict) : dict :=
  let id_ :=
    if isinstance_str (dict_get meta "id") then dict_get meta "id"
    else PStr (fst (OsPath.splitext filename)) in
  let title :=
    if isinstance_str (dict_get meta "title") then dict_get meta "title"
    else id_ in
  let tags :=
    if isinstance_list (dict_get meta "tags") then dict_get meta "tags"
    else PList [] in
  let links :=
    if isinstance_list (dict_get meta "links") then dict_get meta "links"
    else PList [] in
  [ (PStr "id", id_);
    (PStr "title", title);
    (PStr "tags", tags);
    (PStr "file",
      PStr (Str.replace_char "\"%char "/"%char
              (OsPath.join notes_dir filename)));
    (PStr "links", links) ].

(** The [for] loop of [build_config_from_notes]: [notes] is the list
    the loop appends to. *)
Fixpoint for_filename (fs : gmap string node) (notes_dir : string)
    (filenames : list string) (notes : list value) : py (list value) :=
  match filenames with
  | [] => Return notes
  | filename :: rest =>
      if negb (Str.endswith (Str.lower filename) ".md")
      then for_filename fs notes_dir rest notes
      else
        content <- read_text fs (OsPath.join notes_dir filename) ;;
        meta <- parse_markdown_front_matter content ;;
        for_filename fs notes_dir rest
          (notes ++ [PDict (note_record notes_dir filename meta)])
  end.

Definition build_config_from_notes (fs : gmap string node)
    (notes_dir : string) : py value :=
  entries <- listdir fs notes_dir ;;
  notes <- for_filename fs notes_dir (sorted entries) [] ;;
  Return (PDict [(PStr "notes", PList notes)]).

(** *** The entry point *)

(** What a run leaves: the file system, the standard output, and how
    [main] ended. *)
Record run : Type := Run {
  files : gmap string node;
  stdout : string;
  ending : py unit
}.

Definition message (notes_dir : string) : string :=
  "Le répertoire '" +:+ notes_dir
  +:+ "' n'existe pas. Crééz‑le et ajoutez des fichiers Markdown.".

(** [len(config['notes'])]. *)
Definition notes_len (config : value) : nat :=
  match config with
  | PDict d => match dict_get d "notes" with PList l => length l | _ => 0 end
  | _ => 0
  end.

(** [open('config.json', 'w')] empties the file, [json.dump] fills it. *)
Definition main (fs : gmap string node) : run :=
  let notes_dir := "notes" in
  if negb (isdir fs notes_dir)
  then Run fs "" (Raise (SystemExit (message notes_dir)))
  else
    match build_config_from_notes fs notes_dir with
    | Raise e => Run fs "" (Raise e)
    | Return config =>
        if isdir fs "config.json"
        then Run fs "" (Raise (Exception IsADirectoryError))
        else
          match Json.dump config with
          | (text, Some e) =>
              Run (<["config.json" := File text]> fs) ""
                  (Raise (Exception e))
          | (text, None) =>
              Run (<["config.json" := File text]> fs)
                  ("Fichier config.json généré avec "
                   +:+ pretty (notes_len config) +:+ " notes."
                   +:+ Json.newline)
                  (Return tt)
          end
    end.

(** The exit status of the interpreter: 0 when [main] returns, 1 for
    [SystemExit] with a message and for an exception nobody caught. *)
Definition exit_status (r : run) : Z :=
  match ending r with
  | Return _ => 0
  | Raise _ => 1
  end.

(** The message [SystemExit] prints on the standard error. *)
Definition diagnostic (r : run) : option string :=
  match ending r with
  | Raise (SystemExit msg) => Some msg
  | _ => None
  end.

(** *** Definitions for the statements *)

(** The text [parse_markdown_front_matter] hands to [yaml.safe_load]. *)
Definition front_matter_text (content : string) : option string :=
  if Str.startswith content "---" then
    match Str.split content "---" 2 with
    | [_; fm_text; _] => Some fm_text
    | _ => None
    end
  else None.

(** The mapping the document gives, empty unless it is a mapping. *)
Definition load_mapping (fm_text : string) : dict :=
  match safe_load fm_text with
  | Return (PDict d) => d
  | _ => []
  end.

Definition front_matter (content : string) : dict :=
  match front_matter_text content with
  | Some fm_text => load_mapping fm_text
  | None => []
  end.

(** The file passes the filter of the loop. *)
Definition is_md (filename : string) : Prop :=
  Str.endswith (Str.lower filename) ".md" = true.

#[global] Instance is_md_dec filename : Decision (is_md filename) :=
  decide (Str.endswith (Str.lower filename) ".md" = true).

(** The files of the listing that the loop opens can be read. *)
Definition readable (fs : gmap string node) (notes_dir : string)
    (entries : list string) : Prop :=
  forall name, name ∈ entries -> is_md name ->
    exists content, read_text fs (OsPath.join notes_dir name) = Return content.

(** [note] is the record of the file [filename] of [notes_dir]. *)
Definition processed (fs : gmap string node) (notes_dir filename : string)
    (note : value) : Prop :=
  exists content meta,
    read_text fs (OsPath.join notes_dir filename) = Return content
    /\ parse_markdown_front_matter content = Return meta
    /\ note = PDict (note_record notes_dir filename meta).

(** The loop, as a map over the file names. *)
Fixpoint records (fs : gmap string node) (notes_dir : string)
    (filenames : list string) : py (list value) :=
  match filenames with
  | [] => Return []
  | filename :: rest =>
      if Str.endswith (Str.lower filename) ".md" then
        content <- read_text fs (OsPath.join notes_dir filename) ;;
        rs <- records fs notes_dir rest ;;
        Return (PDict (note_record notes_dir filename (front_matter content))
                :: rs)
      else records fs notes_dir rest
  end.


(** Two reads that end the same way for the loop: the same exception,
    or two texts with the same front matter. *)
Definition same_meta (r1 r2 : py string) : Prop :=
  match r1, r2 with
  | Return c1, Return c2 => front_matter c1 = front_matter c2
  | Raise e1, Raise e2 => e1 = e2
  | _, _ => False
  end.


(** Two reads that end the same way for the records: the same exception,
    or two texts whose front matters have the same [id], [title], [tags]
    and [links]. *)
Definition same_fields (r1 r2 : py string) : Prop :=
  match r1, r2 with
  | Return c1, Return c2 =>
      forall k, k ∈ ["id"; "title"; "tags"; "links"] ->
        dict_get (front_matter c1) k = dict_get (front_matter c2) k
  | Raise e1, Raise e2 => e1 = e2
  | _, _ => False
  end.

(** [note["file"]] for a record of the output. *)
Definition note_file (note : value) : value :=
  match note with
  | PDict record => dict_get record "file"
  | _ => PNone
  end.


(** ** Properties *)

(** *** Strings *)

Lemma str_app_assoc (a b c : string) : (a +:+ b) +:+ c = a +:+ (b +:+ c).
Proof.
  induction a as [|x a IH]; [done|].
  change (String x ((a +:+ b) +:+ c) = String x (a +:+ b +:+ c)).
  by rewrite IH.
Qed.

Lemma str_app_nil_r (s : string) : s +:+ "" = s.
Proof.
  induction s as [|c s IH]; [done|].
  change (String c (s +:+ "") = String c s). by rewrite IH.
Qed.

Lemma str_length_app (s t : string) :
  String.length (s +:+ t) = String.length s + String.length t.
Proof.
  induction s as [|c s IH]; [done|].
  change (S (String.length (s +:+ t)) = S (String.length s + String.length t)).
  by rewrite IH.
Qed.

Lemma take_drop (n : nat) (s : string) : Str.take n s +:+ Str.drop n s = s.
Proof.
  revert s. induction n as [|n IH]; intros [|c s]; try done.
  change (String c (Str.take n s +:+ Str.drop n s) = String c s).
  by rewrite IH.
Qed.

Lemma take_app (s t : string) (i : nat) :
  i <= String.length s -> Str.take i (s +:+ t) = Str.take i s.
Proof.
  revert s. induction i as [|i IH]; intros [|c s]; simpl; try done;
    try lia.
  intros. f_equal. apply IH. lia.
Qed.


Lemma drop_app_length (s t : string) : Str.drop (String.length s) (s +:+ t) = t.
Proof. induction s as [|c s IH]; [by destruct t|done]. Qed.

Lemma lower_drop (n : nat) (s : string) :
  Str.lower (Str.drop n s) = Str.drop n (Str.lower s).
Proof. revert s. induction n as [|n IH]; intros [|c s]; simpl; auto. Qed.

Lemma prefix_refl (s : string) : String.prefix s s = true.
Proof.
  induction s as [|c s IH]; simpl; [done|].
  by destruct (ascii_dec c c).
Qed.

Lemma prefix_app (p s t : string) :
  String.prefix p s = true -> String.prefix p (s +:+ t) = true.
Proof.
  revert s. induction p as [|c p IH]; intros s.
  - by destruct (s +:+ t).
  - destruct s as [|d s]; simpl; [done|].
    destruct (ascii_dec c d); [apply IH|done].
Qed.

Lemma prefix_app_false (p s t : string) :
  String.prefix p s = false -> String.length p <= String.length s ->
  String.prefix p (s +:+ t) = false.
Proof.
  revert s. induction p as [|c p IH]; intros s.
  - by destruct s.
  - destruct s as [|d s]; simpl; [lia|].
    destruct (ascii_dec c d); [|done]. intros. apply IH; [done|lia].
Qed.

Lemma prefix_length (p s : string) :
  String.prefix p s = true -> String.length p <= String.length s.
Proof.
  revert s. induction p as [|c p IH]; intros s.
  - simpl. lia.
  - destruct s as [|d s]; simpl; [done|].
    destruct (ascii_dec c d); [|done]. intros H%IH. lia.
Qed.

Lemma find_prefix (s sep0 : string) :
  String.prefix sep0 s = true -> Str.find s sep0 = Some 0.
Proof. intros H. destruct s; cbn [Str.find]; by rewrite H. Qed.

Lemma find_cons (c : ascii) (s sep0 : string) :
  Str.find (String c s) sep0
  = if String.prefix sep0 (String c s) then Some 0
    else S <$> Str.find s sep0.
Proof. done. Qed.

Lemma find_bound (s sep0 : string) (i : nat) :
  Str.find s sep0 = Some i -> i + String.length sep0 <= String.length s.
Proof.
  revert i. induction s as [|c s IH]; intros i.
  - destruct sep0; simpl; [|done]. intros [= <-]. lia.
  - rewrite find_cons.
    destruct (String.prefix sep0 (String c s)) eqn:Hp.
    + intros [= <-]. apply prefix_length in Hp. simpl in *. lia.
    + destruct (Str.find s sep0) as [j|]; simpl; [|done].
      intros [= <-]. specialize (IH j eq_refl). simpl. lia.
Qed.

(** An occurrence found in [s] is the one found in [s +:+ t]. *)
Lemma find_app (s t sep0 : string) (i : nat) :
  Str.find s sep0 = Some i -> Str.find (s +:+ t) sep0 = Some i.
Proof.
  revert i. induction s as [|c s IH]; intros i.
  - destruct sep0; simpl; [|done]. intros [= <-].
    by destruct t.
  - rewrite find_cons.
    destruct (String.prefix sep0 (String c s)) eqn:Hp.
    + intros [= <-].
      change (String c s +:+ t) with (String c (s +:+ t)).
      by rewrite find_prefix by (by apply (prefix_app _ (String c s))).
    + destruct (Str.find s sep0) as [j|] eqn:Hj; intros Hi; simpl in Hi;
        [|done].
      injection Hi as <-. apply find_bound in Hj as Hb.
      change (String c s +:+ t) with (String c (s +:+ t)).
      rewrite find_cons.
      assert (Hq : String.prefix sep0 (String c (s +:+ t)) = false)
        by (apply (prefix_app_false sep0 (String c s) t Hp); simpl; lia).
      by rewrite Hq, (IH j).
Qed.

(** [s +:+ sep0] has an occurrence of [sep0], which starts in [s] or
    right after it. *)
Lemma find_app_sep (s sep0 : string) :
  exists i, Str.find (s +:+ sep0) sep0 = Some i /\ i <= String.length s.
Proof.
  induction s as [|c s (i & Hi & Hle)].
  - exists 0. split; [|done]. apply find_prefix, prefix_refl.
  - change (String c s +:+ sep0) with (String c (s +:+ sep0)).
    rewrite find_cons. destruct (String.prefix sep0 _).
    + exists 0. split; [done|lia].
    + exists (S i). rewrite Hi. split; [done|simpl; lia].
Qed.

Lemma split_length (s sep0 : string) (n : nat) :
  1 <= length (Str.split s sep0 n) <= S n.
Proof.
  revert s. induction n as [|n IH]; intros s; simpl; [lia|].
  destruct (Str.find s sep0); simpl; [|lia].
  specialize (IH (Str.drop (n0 + String.length sep0) s)). lia.
Qed.

(** *** The root of a file name *)

Lemma splitext_app (p : string) :
  fst (OsPath.splitext p) +:+ snd (OsPath.splitext p) = p.
Proof.
  unfold OsPath.splitext. destruct (_ && _); simpl.
  - apply take_drop.
  - apply str_app_nil_r.
Qed.




Lemma lower_char_dot (c : ascii) :
  Str.lower_char c = OsPath.extsep -> c = OsPath.extsep.
Proof.
  destruct c as [[] [] [] [] [] [] [] []]; vm_compute; intros H;
    try done; discriminate H.
Qed.



(** *** The order of [sorted] *)

Lemma sorted_Sorted (l : list string) : Sorted String.le (sorted l).
Proof. apply (Sorted_merge_sort String.le). Qed.

Lemma sorted_Permutation (l : list string) : sorted l ≡ₚ l.
Proof. apply (merge_sort_Permutation String.le). Qed.

(** The listing order of the system does not matter. *)
Lemma sorted_perm (l1 l2 : list string) : l1 ≡ₚ l2 -> sorted l1 = sorted l2.
Proof.
  intros Hp. apply (Sorted_unique String.le); auto using sorted_Sorted.
  by rewrite !sorted_Permutation.
Qed.

Lemma Sorted_filter_md (l : list string) :
  Sorted String.le l -> Sorted String.le (filter is_md l).
Proof.
  intros Hs. apply Sorted_StronglySorted in Hs; [|apply _].
  apply StronglySorted_Sorted.
  induction Hs as [|x l Hs IH Hx]; [constructor|].
  rewrite filter_cons. destruct (decide (is_md x)); [|done].
  constructor; [done|].
  apply Forall_forall. intros y [_ Hy]%list_elem_of_filter.
  by eapply Forall_forall in Hx.
Qed.

(** *** The front matter *)

Lemma parse_markdown_front_matter_eq (content : string) :
  parse_markdown_front_matter content = Return (front_matter content).
Proof.
  unfold parse_markdown_front_matter, front_matter, front_matter_text,
    load_mapping.
  destruct (Str.startswith content "---"); cbn [negb]; [|done].
  destruct (Str.split content "---" 2) as [|a [|b [|c [|d l]]]]; simpl;
    try done.
  by destruct (safe_load b) as [[]|].
Qed.

(** C3. The front-matter extractor never raises: whatever the content, it
    returns a mapping, which is empty when the content does not start
    with [---], when the split has fewer than three segments, when
    [yaml.safe_load] raises and when the document is not a mapping, and
    is the parsed mapping otherwise. *)
Theorem parse_markdown_front_matter_total (content : string) :
  exists meta : dict,
    parse_markdown_front_matter content = Return meta
    /\ (Str.startswith content "---" = false -> meta = [])
    /\ (length (Str.split content "---" 2) < 3 -> meta = [])
    /\ length (Str.split content "---" 2) <= 3
    /\ (forall a fm_text b,
          Str.startswith content "---" = true ->
          Str.split content "---" 2 = [a; fm_text; b] ->
          (forall e, safe_load fm_text = Raise e -> meta = [])
          /\ (forall v, safe_load fm_text = Return v ->
                        isinstance_dict v = false -> meta = [])
          /\ (forall d, safe_load fm_text = Return (PDict d) -> meta = d)).
Proof.
  exists (front_matter content).
  split; [apply parse_markdown_front_matter_eq|].
  unfold front_matter, front_matter_text, load_mapping.
  repeat split.
  - by intros ->.
  - destruct (Str.startswith content "---"); [|done].
    destruct (Str.split content "---" 2) as [|a [|b [|c [|d l]]]];
      simpl; intros; try done; lia.
  - pose proof (split_length content "---" 2). lia.
  - intros e He. rewrite H, H0, He. done.
  - intros v Hv Hd. rewrite H, H0, Hv. by destruct v.
  - intros d Hd. by rewrite H, H0, Hd.
Qed.

Lemma front_matter_text_find (content : string) :
  front_matter_text content =
    if Str.startswith content "---" then
      match Str.find (Str.drop 3 content) "---" with
      | Some i => Some (Str.take i (Str.drop 3 content))
      | None => None
      end
    else None.
Proof.
  unfold front_matter_text.
  destruct (Str.startswith content "---") eqn:Hs; [|done].
  unfold Str.startswith in Hs.
  unfold Str.split. rewrite (find_prefix _ _ Hs).
  change (0 + String.length "---") with 3.
  by destruct (Str.find (Str.drop 3 content) "---").
Qed.

(** What follows the closing delimiter has no part in the text handed
    to [yaml.safe_load]. *)
Lemma front_matter_text_body (F B : string) :
  front_matter_text ("---" +:+ F +:+ "---" +:+ B)
  = (fun i => Str.take i (F +:+ "---")) <$> Str.find (F +:+ "---") "---".
Proof.
  destruct (find_app_sep F "---") as (i & Hi & Hle).
  rewrite Hi. simpl.
  rewrite front_matter_text_find.
  unfold Str.startswith. rewrite (prefix_app _ _ _ (prefix_refl "---")).
  change (Str.drop 3 ("---" +:+ F +:+ "---" +:+ B))
    with (F +:+ "---" +:+ B).
  rewrite <- str_app_assoc, (find_app _ _ _ _ Hi).
  rewrite take_app; [done|].
  apply find_bound in Hi. lia.
Qed.

Lemma front_matter_body (F B1 B2 : string) :
  front_matter ("---" +:+ F +:+ "---" +:+ B1)
  = front_matter ("---" +:+ F +:+ "---" +:+ B2).
Proof. unfold front_matter. by rewrite !front_matter_text_body. Qed.

(** C5, as the code has it. The front matter is cut out by substring, not
    by line: it is there when the content starts with the characters
    [---], it ends at the first [---] after them, wherever that is in a
    line, and the text in between is what [yaml.safe_load] gets; with
    no second [---] there is no front matter. *)
Theorem front_matter_by_substring (content : string) :
  parse_markdown_front_matter content
  = Return
      (if Str.startswith content "---" then
         match Str.find (Str.drop 3 content) "---" with
         | Some i => load_mapping (Str.take i (Str.drop 3 content))
         | None => []
         end
       else []).
Proof.
  rewrite parse_markdown_front_matter_eq. unfold front_matter.
  rewrite front_matter_text_find.
  destruct (Str.startswith content "---"); [|done].
  by destruct (Str.find (Str.drop 3 content) "---").
Qed.

(** *** The records of a directory *)

Lemma for_filename_records fs notes_dir filenames notes :
  for_filename fs notes_dir filenames notes
  = (rs <- records fs notes_dir filenames ;; Return (notes ++ rs)).
Proof.
  revert notes. induction filenames as [|f l IH]; intros notes; simpl.
  - by rewrite app_nil_r.
  - destruct (Str.endswith (Str.lower f) ".md"); simpl; [|apply IH].
    destruct (read_text fs (OsPath.join notes_dir f)); simpl; [|done].
    rewrite parse_markdown_front_matter_eq. simpl. rewrite IH.
    destruct (records fs notes_dir l); simpl; [|done].
    by rewrite <- app_assoc.
Qed.

Lemma records_Return fs notes_dir filenames rs :
  records fs notes_dir filenames = Return rs ->
  Forall2 (processed fs notes_dir) (filter is_md filenames) rs.
Proof.
  revert rs. induction filenames as [|f l IH]; intros rs; simpl.
  - intros [= <-]. constructor.
  - rewrite filter_cons.
    destruct (decide (is_md f)) as [Hmd|Hmd]; unfold is_md in Hmd.
    + rewrite Hmd.
      destruct (read_text fs (OsPath.join notes_dir f)) as [c|] eqn:Hc;
        simpl; [|done].
      destruct (records fs notes_dir l) as [rs'|]; simpl; [|done].
      intros [= <-]. constructor; [|by apply IH].
      exists c, (front_matter c).
      by rewrite parse_markdown_front_matter_eq.
    + apply not_true_is_false in Hmd. rewrite Hmd. apply IH.
Qed.

Lemma records_readable fs notes_dir filenames :
  readable fs notes_dir filenames ->
  exists rs, records fs notes_dir filenames = Return rs.
Proof.
  induction filenames as [|f l IH]; intros Hr; simpl; [by eexists|].
  destruct IH as [rs Hrs].
  { intros name Hin. apply Hr. by right. }
  destruct (Str.endswith (Str.lower f) ".md") eqn:Hmd; [|by eexists].
  destruct (Hr f) as [c Hc]; [by left|done|].
  rewrite Hc, Hrs. simpl. by eexists.
Qed.

Lemma build_config_from_notes_records fs notes_dir :
  build_config_from_notes fs notes_dir
  = (entries <- listdir fs notes_dir ;;
     rs <- records fs notes_dir (sorted entries) ;;
     Return (PDict [(PStr "notes", PList rs)])).
Proof.
  unfold build_config_from_notes.
  destruct (listdir fs notes_dir) as [entries|]; simpl; [|done].
  rewrite for_filename_records.
  by destruct (records fs notes_dir (sorted entries)).
Qed.


(** With a directory to list and files to read, the function returns. *)
Lemma build_config_from_notes_readable fs notes_dir entries :
  listdir fs notes_dir = Return entries ->
  readable fs notes_dir entries ->
  exists notes,
    records fs notes_dir (sorted entries) = Return notes
    /\ build_config_from_notes fs notes_dir
       = Return (PDict [(PStr "notes", PList notes)]).
Proof.
  intros Hl Hr.
  destruct (records_readable fs notes_dir (sorted entries)) as [rs Hrs].
  { intros name Hin. apply Hr. by rewrite <- (sorted_Permutation entries). }
  exists rs. split; [done|].
  rewrite build_config_from_notes_records, Hl. simpl. by rewrite Hrs.
Qed.

(** C2. When the files of the listing that end in [.md], whatever the
    case of the letters, can be read, the [notes] list has one record
    for each of them and no other, in the order [sorted] gives the file
    names: nothing is merged and nothing is dropped. *)
Theorem build_config_from_notes_one_per_file
    (fs : gmap string node) (notes_dir : string) (entries : list string) :
  listdir fs notes_dir = Return entries ->
  readable fs notes_dir entries ->
  exists notes,
    build_config_from_notes fs notes_dir
    = Return (PDict [(PStr "notes", PList notes)])
    /\ Forall2 (processed fs notes_dir) (filter is_md (sorted entries)) notes
    /\ Sorted String.le (filter is_md (sorted entries))
    /\ filter is_md (sorted entries) ≡ₚ filter is_md entries
    /\ length notes = length (filter is_md entries).
Proof.
  intros Hl Hr.
  destruct (build_config_from_notes_readable _ _ _ Hl Hr) as (rs & Hrs & Hb).
  exists rs. split; [done|].
  pose proof (records_Return _ _ _ _ Hrs) as HF.
  assert (Hp : filter is_md (sorted entries) ≡ₚ filter is_md entries)
    by (by rewrite sorted_Permutation).
  repeat split; try done.
  - apply Sorted_filter_md, sorted_Sorted.
  - by rewrite <- (Forall2_length _ _ _ HF), Hp.
Qed.


(** *** The fields of a record *)







(** *** The text of a record *)

Lemma seq_assoc (a b c : written) : (a >> b) >> c = a >> (b >> c).
Proof.
  destruct a as [s [e|]]; [done|]. destruct b as [t [e|]]; [done|].
  destruct c as [u o]. unfold seq. simpl. by rewrite str_app_assoc.
Qed.

Lemma seq_emit_nil_l (a : written) : emit "" >> a = a.
Proof. by destruct a. Qed.

Lemma iterencode_dict5 (k1 k2 k3 k4 k5 : string) (v1 v2 v3 v4 v5 : value)
    (level : nat) :
  Json.iterencode
    (PDict [(PStr k1, v1); (PStr k2, v2); (PStr k3, v3); (PStr k4, v4);
            (PStr k5, v5)]) level
  = emit "{" >> emit (Json.newline_indent (S level))
    >> Json.member level k1 v1 >> emit (Json.item_separator level)
    >> Json.member level k2 v2 >> emit (Json.item_separator level)
    >> Json.member level k3 v3 >> emit (Json.item_separator level)
    >> Json.member level k4 v4 >> emit (Json.item_separator level)
    >> Json.member level k5 v5
    >> emit (Json.newline_indent level) >> emit "}".
Proof.
  unfold Json.member, Json.item_separator.
  cbn [Json.iterencode Json.key_text].
  by rewrite !seq_assoc, !seq_emit_nil_l.
Qed.

Lemma iterencode_note_record notes_dir filename meta level :
  let record := note_record notes_dir filename meta in
  Json.iterencode (PDict record) level
  = emit "{" >> emit (Json.newline_indent (S level))
    >> Json.member level "id" (dict_get record "id")
    >> emit (Json.item_separator level)
    >> Json.member level "title" (dict_get record "title")
    >> emit (Json.item_separator level)
    >> Json.member level "tags" (dict_get record "tags")
    >> emit (Json.item_separator level)
    >> Json.member level "file" (dict_get record "file")
    >> emit (Json.item_separator level)
    >> Json.member level "links" (dict_get record "links")
    >> emit (Json.newline_indent level) >> emit "}".
Proof. apply iterencode_dict5. Qed.


(** C6, as the code has it. The keys of a record are, in this order,
    [id], [title], [tags], [file] and [links], and [json.dump] writes
    them in this order. *)
Theorem record_field_order (notes_dir filename : string) (meta : dict)
    (level : nat) :
  let record := note_record notes_dir filename meta in
  record.*1 = [PStr "id"; PStr "title"; PStr "tags"; PStr "file";
               PStr "links"]
  /\ Json.iterencode (PDict record) level
     = emit "{" >> emit (Json.newline_indent (S level))
       >> Json.member level "id" (dict_get record "id")
       >> emit (Json.item_separator level)
       >> Json.member level "title" (dict_get record "title")
       >> emit (Json.item_separator level)
       >> Json.member level "tags" (dict_get record "tags")
       >> emit (Json.item_separator level)
       >> Json.member level "file" (dict_get record "file")
       >> emit (Json.item_separator level)
       >> Json.member level "links" (dict_get record "links")
       >> emit (Json.newline_indent level) >> emit "}".
Proof. split; [done|apply iterencode_note_record]. Qed.


(** *** What the output depends on *)

Lemma same_meta_refl (r : py string) : same_meta r r.
Proof. by destruct r. Qed.

Lemma records_ext fs1 fs2 notes_dir filenames :
  (forall name, name ∈ filenames ->
     same_meta (read_text fs1 (OsPath.join notes_dir name))
               (read_text fs2 (OsPath.join notes_dir name))) ->
  records fs1 notes_dir filenames = records fs2 notes_dir filenames.
Proof.
  induction filenames as [|f l IH]; intros Hr; simpl; [done|].
  rewrite IH by (intros name Hin; apply Hr; by right).
  destruct (Str.endswith (Str.lower f) ".md"); [|done].
  specialize (Hr f (list_elem_of_here _ _)).
  destruct (read_text fs1 (OsPath.join notes_dir f)),
    (read_text fs2 (OsPath.join notes_dir f)); simpl in *;
    try done; by rewrite Hr.
Qed.

Lemma build_config_from_notes_ext fs1 fs2 notes_dir l1 l2 :
  listdir fs1 notes_dir = Return l1 ->
  listdir fs2 notes_dir = Return l2 ->
  l1 ≡ₚ l2 ->
  (forall name, name ∈ l1 ->
     same_meta (read_text fs1 (OsPath.join notes_dir name))
               (read_text fs2 (OsPath.join notes_dir name))) ->
  build_config_from_notes fs1 notes_dir
  = build_config_from_notes fs2 notes_dir.
Proof.
  intros H1 H2 Hp Hr. rewrite !build_config_from_notes_records, H1, H2.
  simpl. rewrite <- (sorted_perm _ _ Hp).
  rewrite (records_ext fs1 fs2); [done|].
  intros name Hin. apply Hr. by rewrite <- (sorted_Permutation l1).
Qed.

(** C10. The body of a note has no part in the output: two contents
    with the same front-matter text [F], free of [---], between the
    same delimiters give the same mapping, and a directory where one
    stands for the other gives the same records. *)
Theorem body_never_read
    (fs : gmap string node) (notes_dir path F B1 B2 : string) :
  Str.find F "---" = None ->
  parse_markdown_front_matter ("---" +:+ F +:+ "---" +:+ B1)
  = parse_markdown_front_matter ("---" +:+ F +:+ "---" +:+ B2)
  /\ build_config_from_notes
       (<[path := File ("---" +:+ F +:+ "---" +:+ B1)]> fs) notes_dir
     = build_config_from_notes
         (<[path := File ("---" +:+ F +:+ "---" +:+ B2)]> fs) notes_dir.
Proof.
  intros _. split.
  { by rewrite !parse_markdown_front_matter_eq, (front_matter_body F B1 B2). }
  rewrite !build_config_from_notes_records.
  assert (Hl : listdir (<[path := File ("---" +:+ F +:+ "---" +:+ B1)]> fs)
                 notes_dir
               = listdir (<[path := File ("---" +:+ F +:+ "---" +:+ B2)]> fs)
                   notes_dir).
  { unfold listdir. destruct (decide (path = notes_dir)) as [->|Hne].
    - by rewrite !lookup_insert_eq.
    - by rewrite !lookup_insert_ne by done. }
  rewrite Hl. clear Hl.
  destruct (listdir _ notes_dir) as [entries|]; simpl; [|done].
  rewrite (records_ext _
    (<[path := File ("---" +:+ F +:+ "---" +:+ B2)]> fs)); [done|].
  intros name _. unfold read_text.
  destruct (decide (path = OsPath.join notes_dir name)) as [->|Hne].
  - rewrite !lookup_insert_eq. apply front_matter_body.
  - rewrite !lookup_insert_ne by done.
    apply (same_meta_refl (read_text fs (OsPath.join notes_dir name))).
Qed.

(** *** The entry point *)


(** C7. Without a directory [notes], [main] ends with [SystemExit] and
    its message, the exit status is not 0, and the file system is as it
    was: no directory is made and [config.json] is not touched. *)
Theorem main_without_notes (fs : gmap string node) :
  isdir fs "notes" = false ->
  ending (main fs) = Raise (SystemExit (message "notes"))
  /\ exit_status (main fs) <> 0%Z
  /\ diagnostic (main fs) = Some (message "notes")
  /\ stdout (main fs) = ""
  /\ files (main fs) = fs
  /\ files (main fs) !! "notes" = fs !! "notes"
  /\ files (main fs) !! "config.json" = fs !! "config.json".
Proof.
  intros H. unfold exit_status, diagnostic, main. rewrite H. simpl.
  repeat split; done.
Qed.

(** C8. Two runs over the same [notes] directory, the names listed in
    any order and each file with the same text, end the same way, print
    the same, and leave the same [config.json], unless neither wrote
    anything. *)
Theorem main_deterministic
    (fs1 fs2 : gmap string node) (l1 l2 : list string) :
  fs1 !! "notes" = Some (Directory l1) ->
  fs2 !! "notes" = Some (Directory l2) ->
  l1 ≡ₚ l2 ->
  (forall name, name ∈ l1 ->
     read_text fs1 (OsPath.join "notes" name)
     = read_text fs2 (OsPath.join "notes" name)) ->
  isdir fs1 "config.json" = isdir fs2 "config.json" ->
  ending (main fs1) = ending (main fs2)
  /\ stdout (main fs1) = stdout (main fs2)
  /\ (files (main fs1) !! "config.json" = files (main fs2) !! "config.json"
      \/ (files (main fs1) = fs1 /\ files (main fs2) = fs2)).
Proof.
  intros H1 H2 Hp Hr Hc. unfold main, isdir in *. rewrite H1, H2.
  cbn [negb].
  rewrite (build_config_from_notes_ext fs1 fs2 "notes" l1 l2); try done.
  - destruct (build_config_from_notes fs2 "notes") as [config|e];
      [|by auto].
    rewrite Hc.
    destruct (fs2 !! "config.json") as [[]|]; simpl; auto;
      destruct (Json.dump config) as [out [e|]]; simpl;
      rewrite !lookup_insert_eq; auto.
  - unfold listdir. by rewrite H1.
  - unfold listdir. by rewrite H2.
  - intros name Hin. rewrite (Hr name Hin). apply same_meta_refl.
Qed.


(** ** Further properties of the script *)

(** *** The text between the delimiters *)

Lemma prefix_drop (p s : string) :
  String.prefix p s = true -> s = p +:+ Str.drop (String.length p) s.
Proof.
  revert s. induction p as [|c p IH]; intros s; [by destruct s|].
  destruct s as [|d s]; simpl; [done|].
  destruct (ascii_dec c d) as [->|]; [|done]. intros H.
  change (String d s = String d (p +:+ Str.drop (String.length p) s)).
  by rewrite <- (IH s H).
Qed.

Lemma prefix_take (p s : string) (n : nat) :
  String.prefix p (Str.take n s) = true -> String.prefix p s = true.
Proof.
  revert s n. induction p as [|c p IH]; intros s n; [by destruct s|].
  destruct n as [|n], s as [|d s]; simpl; try done.
  destruct (ascii_dec c d); [apply IH|done].
Qed.

Lemma find_None_cons (c : ascii) (s sep0 : string) :
  String.prefix sep0 (String c s) = false ->
  Str.find s sep0 = None -> Str.find (String c s) sep0 = None.
Proof. intros Hp Hf. by rewrite find_cons, Hp, Hf. Qed.

(** Before its first occurrence in [s], [sep0] does not occur. *)
Lemma find_take (s sep0 : string) (i : nat) :
  sep0 <> "" -> Str.find s sep0 = Some i ->
  Str.find (Str.take i s) sep0 = None.
Proof.
  intros Hne. revert i. induction s as [|c s IH]; intros i.
  - destruct sep0; [done|]. by destruct i.
  - rewrite find_cons.
    destruct (String.prefix sep0 (String c s)) eqn:Hp.
    + intros [= <-]. by destruct sep0.
    + destruct (Str.find s sep0) as [j|] eqn:Hj; intros Hi; simpl in Hi;
        [|done].
      injection Hi as <-.
      change (Str.take (S j) (String c s)) with (String c (Str.take j s)).
      apply find_None_cons; [|by apply IH].
      destruct (String.prefix sep0 (String c (Str.take j s))) eqn:Hq; [|done].
      apply (prefix_take _ (String c s) (S j)) in Hq. congruence.
Qed.

Lemma find_drop (s sep0 : string) (i : nat) :
  Str.find s sep0 = Some i -> String.prefix sep0 (Str.drop i s) = true.
Proof.
  revert i. induction s as [|c s IH]; intros i.
  - simpl. destruct sep0; [|done]. by intros [= <-].
  - rewrite find_cons.
    destruct (String.prefix sep0 (String c s)) eqn:Hp.
    + by intros [= <-].
    + destruct (Str.find s sep0) as [j|]; intros Hi; simpl in Hi; [|done].
      injection Hi as <-. by apply IH.
Qed.

(** X12. When there is a front matter, the content is [---], the text
    given to [yaml.safe_load], [---] again and the body, and the text
    given to the parser has no [---] in it; the mapping is the one the
    parser makes of that text. *)
Theorem front_matter_text_delimited (content fm_text : string) :
  front_matter_text content = Some fm_text ->
  Str.find fm_text "---" = None
  /\ (exists body, content = "---" +:+ fm_text +:+ "---" +:+ body)
  /\ parse_markdown_front_matter content = Return (load_mapping fm_text).
Proof.
  intros H. split; [|split].
  - rewrite front_matter_text_find in H.
    destruct (Str.startswith content "---"); [|done].
    destruct (Str.find (Str.drop 3 content) "---") as [i|] eqn:Hi; [|done].
    injection H as <-. by apply find_take.
  - rewrite front_matter_text_find in H.
    destruct (Str.startswith content "---") eqn:Hs; [|done].
    destruct (Str.find (Str.drop 3 content) "---") as [i|] eqn:Hi; [|done].
    injection H as <-.
    exists (Str.drop 3 (Str.drop i (Str.drop 3 content))).
    pose proof (prefix_drop "---" _ (find_drop _ _ _ Hi)) as H1.
    change (String.length "---") with 3 in H1.
    rewrite <- H1, take_drop. apply (prefix_drop "---" content Hs).
  - rewrite parse_markdown_front_matter_eq. unfold front_matter. by rewrite H.
Qed.

(** *** The names the loop keeps *)

Lemma lower_char_m (c : ascii) :
  Str.lower_char c = "m"%char -> c = "m"%char \/ c = "M"%char.
Proof.
  destruct c as [[] [] [] [] [] [] [] []]; vm_compute; intros H;
    try discriminate H; auto.
Qed.

Lemma lower_char_d (c : ascii) :
  Str.lower_char c = "d"%char -> c = "d"%char \/ c = "D"%char.
Proof.
  destruct c as [[] [] [] [] [] [] [] []]; vm_compute; intros H;
    try discriminate H; auto.
Qed.

Lemma lower_length (s : string) : String.length (Str.lower s) = String.length s.
Proof. induction s as [|c s IH]; simpl; auto. Qed.

Lemma lower_app (s t : string) :
  Str.lower (s +:+ t) = Str.lower s +:+ Str.lower t.
Proof.
  induction s as [|c s IH]; [done|].
  change (String (Str.lower_char c) (Str.lower (s +:+ t))
          = String (Str.lower_char c) (Str.lower s +:+ Str.lower t)).
  by rewrite IH.
Qed.

(** X15. The loop keeps a name exactly when its last three characters are
    a dot, [m] or [M], and [d] or [D]. *)
Theorem is_md_iff (filename : string) :
  is_md filename <->
  exists stem m d,
    filename = stem +:+ String "."%char (String m (String d ""))
    /\ (m = "m"%char \/ m = "M"%char)
    /\ (d = "d"%char \/ d = "D"%char).
Proof.
  split.
  - unfold is_md, Str.endswith.
    intros [_ He%String.eqb_eq]%andb_prop.
    rewrite <- lower_drop in He.
    set (n := String.length (Str.lower filename) - String.length ".md") in He.
    pose proof (take_drop n filename) as Hf.
    destruct (Str.drop n filename) as [|c1 [|c2 [|c3 [|c4 rest]]]] eqn:Hd;
      try discriminate He.
    injection He as H1 H2 H3. apply lower_char_dot in H1. subst c1.
    exists (Str.take n filename), c2, c3.
    auto using lower_char_m, lower_char_d.
  - intros (stem & m & d & -> & Hm & Hd).
    unfold is_md, Str.endswith.
    rewrite lower_length, str_length_app, lower_app.
    replace (String.length stem
             + String.length (String "." (String m (String d "")))
             - String.length ".md") with (String.length stem) by (simpl; lia).
    rewrite <- (lower_length stem), drop_app_length.
    apply andb_true_intro. split; [apply Nat.leb_le; simpl; lia|].
    by destruct Hm as [-> | ->], Hd as [-> | ->].
Qed.

(** *** The root of any path *)

Lemma rfind_from_range (s : string) (c : ascii) (i : Z) :
  (0 <= i)%Z ->
  Str.rfind_from i s c = (-1)%Z
  \/ (i <= Str.rfind_from i s c < i + Z.of_nat (String.length s))%Z.
Proof.
  revert i. induction s as [|a s IH]; intros i Hi; simpl; [by left|].
  destruct (IH (i + 1)%Z) as [-> | H]; [lia| |].
  - simpl. destruct (Ascii.eqb a c); [right|left]; lia.
  - destruct (Z.leb_spec 0 (Str.rfind_from (i + 1) s c)); [right|]; lia.
Qed.

Lemma has_stem_pos (steps : nat) (p : string) (i : nat) :
  OsPath.has_stem steps p i = true -> 0 < steps.
Proof. destruct steps; [done|lia]. Qed.

Lemma take_nonempty (n : nat) (s : string) :
  0 < n -> s <> "" -> Str.take n s <> "".
Proof. destruct n, s; simpl; try done; lia. Qed.

(** X9. [os.path.splitext] gives a path that is not empty a root that is
    not empty and that the path starts with: the [id] taken from the name
    of a note is never the empty string. *)
Theorem splitext_root_nonempty (filename : string) :
  filename <> "" ->
  fst (OsPath.splitext filename) <> ""
  /\ Str.startswith filename (fst (OsPath.splitext filename)) = true
  /\ (forall notes_dir meta,
        isinstance_str (dict_get meta "id") = false ->
        dict_get (note_record notes_dir filename meta) "id"
        = PStr (fst (OsPath.splitext filename))).
Proof.
  intros Hne. split; [|split].
  - unfold OsPath.splitext.
    destruct (_ && _) eqn:Hc; simpl; [|done].
    apply andb_prop in Hc as [Hlt%Z.ltb_lt Hs%has_stem_pos].
    apply take_nonempty; [|done].
    destruct (rfind_from_range filename OsPath.sep 0) as [Hr|Hr]; [lia| |];
      unfold Str.rfind in *; lia.
  - unfold Str.startswith.
    rewrite <- (splitext_app filename) at 2.
    apply prefix_app, prefix_refl.
  - intros notes_dir meta Hid. simpl. by rewrite Hid.
Qed.


(** *** The shape of a record *)

(** X7. Whatever the front matter holds, a record has a [str] for [id],
    [title] and [file] and a [list] for [tags] and [links]. *)
Theorem note_record_types (notes_dir filename : string) (meta : dict) :
  let record := note_record notes_dir filename meta in
  isinstance_str (dict_get record "id") = true
  /\ isinstance_str (dict_get record "title") = true
  /\ isinstance_list (dict_get record "tags") = true
  /\ isinstance_str (dict_get record "file") = true
  /\ isinstance_list (dict_get record "links") = true.
Proof.
  simpl.
  destruct (isinstance_str (dict_get meta "id")) eqn:Hid,
    (isinstance_str (dict_get meta "title")) eqn:Ht,
    (isinstance_list (dict_get meta "tags")) eqn:Hg,
    (isinstance_list (dict_get meta "links")) eqn:Hl; by rewrite ?Hid.
Qed.

(** A record is made of the front-matter keys [id], [title], [tags] and
    [links] and of nothing else in the front matter. *)
Lemma note_record_four_keys (notes_dir filename : string)
    (meta meta' : dict) :
  (forall k, k ∈ ["id"; "title"; "tags"; "links"] ->
     dict_get meta k = dict_get meta' k) ->
  note_record notes_dir filename meta = note_record notes_dir filename meta'.
Proof.
  intros H. unfold note_record.
  rewrite (H "id"), (H "title"), (H "tags"), (H "links");
    [done|rewrite !elem_of_cons; auto..].
Qed.

Lemma mem_char_replace (old new : ascii) (s : string) :
  old <> new -> Str.mem_char old (Str.replace_char old new s) = false.
Proof.
  intros Hne. induction s as [|c s IH]; simpl; [done|]. rewrite IH.
  destruct (Ascii.eqb_spec c old) as [->|Hc].
  - by rewrite orb_false_r; apply Ascii.eqb_neq.
  - by rewrite orb_false_r; apply Ascii.eqb_neq.
Qed.

Lemma replace_char_id (old new : ascii) (s : string) :
  Str.mem_char old s = false -> Str.replace_char old new s = s.
Proof.
  induction s as [|c s IH]; simpl; [done|].
  intros [Hc Hs]%orb_false_elim. by rewrite Hc, IH.
Qed.

(** X10. The [file] of a record has no backslash in it, and it is the
    path the note was read from when that path has none. *)
Theorem file_field_slashes (notes_dir filename : string) (meta : dict) :
  exists path,
    dict_get (note_record notes_dir filename meta) "file" = PStr path
    /\ Str.mem_char "\"%char path = false
    /\ (Str.mem_char "\"%char (OsPath.join notes_dir filename) = false ->
        path = OsPath.join notes_dir filename).
Proof.
  eexists. split; [reflexivity|]. split.
  - by apply mem_char_replace.
  - apply replace_char_id.
Qed.


(** *** What the records are made of *)

Lemma records_same_fields fs1 fs2 notes_dir filenames :
  (forall name, name ∈ filenames -> is_md name ->
     same_fields (read_text fs1 (OsPath.join notes_dir name))
                 (read_text fs2 (OsPath.join notes_dir name))) ->
  records fs1 notes_dir filenames = records fs2 notes_dir filenames.
Proof.
  induction filenames as [|f l IH]; intros Hr; simpl; [done|].
  rewrite IH by (intros name Hin; apply Hr; by right).
  destruct (Str.endswith (Str.lower f) ".md") eqn:Hmd; [|done].
  specialize (Hr f (list_elem_of_here _ _) Hmd).
  destruct (read_text fs1 (OsPath.join notes_dir f)) as [c1|e1],
    (read_text fs2 (OsPath.join notes_dir f)) as [c2|e2]; simpl in *;
    try done; [|by rewrite Hr].
  by rewrite (note_record_four_keys notes_dir f _ _ Hr).
Qed.

(** X8. The output is made of the notes and of nothing else: two
    directories that list the same names, in any order, and whose [.md]
    files end the same way when read, with the same [id], [title], [tags]
    and [links] in their front matters, give the same result.  The other
    files, the other keys and the bodies have no part in it. *)
Theorem build_config_from_notes_reads
    (fs1 fs2 : gmap string node) (notes_dir : string) (l1 l2 : list string) :
  listdir fs1 notes_dir = Return l1 ->
  listdir fs2 notes_dir = Return l2 ->
  l1 ≡ₚ l2 ->
  (forall name, name ∈ l1 -> is_md name ->
     same_fields (read_text fs1 (OsPath.join notes_dir name))
                 (read_text fs2 (OsPath.join notes_dir name))) ->
  build_config_from_notes fs1 notes_dir = build_config_from_notes fs2 notes_dir.
Proof.
  intros H1 H2 Hp Hr. rewrite !build_config_from_notes_records, H1, H2.
  simpl. rewrite <- (sorted_perm _ _ Hp).
  rewrite (records_same_fields fs1 fs2); [done|].
  intros name Hin. apply Hr. by rewrite <- (sorted_Permutation l1).
Qed.

(** *** What [json.dump] accepts *)









(** *** What [main] leaves behind *)



Lemma records_not_md fs notes_dir filenames :
  (forall name, name ∈ filenames -> ~ is_md name) ->
  records fs notes_dir filenames = Return [].
Proof.
  induction filenames as [|f l IH]; intros H; simpl; [done|].
  destruct (Str.endswith (Str.lower f) ".md") eqn:Hmd.
  - destruct (H f); [by left|done].
  - apply IH. intros name Hin. apply H. by right.
Qed.

(** X13. With no name ending in [.md] in the directory, whatever else is
    there, [main] writes the index of no note, says so and ends well. *)
Theorem main_no_markdown (fs : gmap string node) (entries : list string) :
  fs !! "notes" = Some (Directory entries) ->
  (forall name, name ∈ entries -> ~ is_md name) ->
  isdir fs "config.json" = false ->
  main fs
  = Run (<["config.json" :=
             File ("{" +:+ Str.newline +:+ "  "
                   +:+ Json.encode_basestring "notes" +:+ ": []"
                   +:+ Str.newline +:+ "}")]> fs)
        ("Fichier config.json généré avec 0 notes." +:+ Str.newline)
        (Return tt).
Proof.
  intros Hn Hmd Hc. unfold main, isdir at 1. rewrite Hn. cbn [negb].
  rewrite build_config_from_notes_records. unfold listdir. rewrite Hn.
  simpl. rewrite records_not_md, Hc; [done|].
  intros name Hin. apply Hmd. by rewrite <- (sorted_Permutation entries).
Qed.

Lemma records_unreadable fs notes_dir before name after e :
  readable fs notes_dir before ->
  is_md name ->
  read_text fs (OsPath.join notes_dir name) = Raise e ->
  records fs notes_dir (before ++ name :: after) = Raise e.
Proof.
  intros Hr Hmd He. induction before as [|f l IH]; simpl.
  - unfold is_md in Hmd. by rewrite Hmd, He.
  - rewrite IH by (intros n Hin; apply Hr; by right).
    destruct (Str.endswith (Str.lower f) ".md") eqn:Hf; [|done].
    destruct (Hr f) as [c ->]; [by left|done|done].
Qed.

(** X4. A note that cannot be read stops the run: the exception of the
    first such note, in the sorted order, ends [main], nothing is printed
    and the file system is as it was. *)
Theorem main_read_error (fs : gmap string node) (entries before after : list string)
    (name : string) (e : base_exception) :
  fs !! "notes" = Some (Directory entries) ->
  sorted entries = before ++ name :: after ->
  readable fs "notes" before ->
  is_md name ->
  read_text fs (OsPath.join "notes" name) = Raise e ->
  build_config_from_notes fs "notes" = Raise e
  /\ main fs = Run fs "" (Raise e).
Proof.
  intros Hn Hs Hr Hmd He.
  assert (Hb : build_config_from_notes fs "notes" = Raise e).
  { rewrite build_config_from_notes_records. unfold listdir. rewrite Hn.
    simpl. by rewrite Hs, (records_unreadable _ _ _ _ _ _ Hr Hmd He). }
  split; [done|]. unfold main, isdir. by rewrite Hn, Hb.
Qed.


(** *** When [main] ends well *)










(** *** The [file] of a record names its note *)

Lemma replace_char_app (old new : ascii) (s t : string) :
  Str.replace_char old new (s +:+ t)
  = Str.replace_char old new s +:+ Str.replace_char old new t.
Proof.
  induction s as [|c s IH]; [done|].
  change (String c s +:+ t) with (String c (s +:+ t)).
  cbn [Str.replace_char]. by rewrite IH.
Qed.

Lemma replace_char_inj (old new : ascii) (s t : string) :
  Str.mem_char new s = false -> Str.mem_char new t = false ->
  Str.replace_char old new s = Str.replace_char old new t -> s = t.
Proof.
  revert t. induction s as [|c s IH]; intros [|d t]; simpl; try done.
  intros [Hc Hs]%orb_false_elim [Hd Ht]%orb_false_elim [= Hcd Hst].
  f_equal; [|by apply IH].
  apply Ascii.eqb_neq in Hc, Hd.
  destruct (Ascii.eqb_spec c old), (Ascii.eqb_spec d old); congruence.
Qed.

Lemma startswith_mem_char (c : ascii) (s : string) :
  Str.mem_char c s = false -> Str.startswith s (String c "") = false.
Proof.
  unfold Str.startswith. destruct s as [|d s]; simpl; [done|].
  intros [Hd _]%orb_false_elim. apply Ascii.eqb_neq in Hd.
  by destruct (ascii_dec c d) as [->|].
Qed.

(** A name without [/] is put after the directory, the same way for
    every such name. *)
Lemma join_name (notes_dir name : string) :
  Str.mem_char OsPath.sep name = false ->
  OsPath.join notes_dir name
  = (if String.eqb notes_dir "" || Str.endswith notes_dir "/"
     then notes_dir else notes_dir +:+ "/") +:+ name.
Proof.
  intros H. unfold OsPath.join.
  rewrite (startswith_mem_char "/" name H).
  destruct (_ || _); [done|]. by rewrite str_app_assoc.
Qed.

Lemma note_files fs notes_dir names notes :
  Forall2 (processed fs notes_dir) names notes ->
  note_file <$> notes
  = (fun name => PStr (Str.replace_char "\"%char "/"%char
                         (OsPath.join notes_dir name))) <$> names.
Proof.
  induction 1 as [|name note names notes (c & meta & _ & _ & ->) _ IH];
    [done|].
  cbn [fmap list_fmap]. by rewrite <- IH.
Qed.

(** X11. In a directory, where no name is there twice and no name has a
    [/], the [file] values of the records are those of the [.md] names
    in sorted order, and no two records have the same [file]: two notes
    may have the same [id], never the same [file]. *)
Theorem file_fields_distinct
    (fs : gmap string node) (notes_dir : string) (entries : list string) :
  listdir fs notes_dir = Return entries ->
  readable fs notes_dir entries ->
  NoDup entries ->
  (forall name, name ∈ entries -> Str.mem_char OsPath.sep name = false) ->
  exists notes,
    build_config_from_notes fs notes_dir
    = Return (PDict [(PStr "notes", PList notes)])
    /\ note_file <$> notes
       = (fun name => PStr (Str.replace_char "\"%char "/"%char
                              (OsPath.join notes_dir name)))
         <$> filter is_md (sorted entries)
    /\ NoDup (note_file <$> notes).
Proof.
  intros Hl Hr Hnd Hsep.
  destruct (build_config_from_notes_readable _ _ _ Hl Hr)
    as (notes & Hrs & Hb).
  exists notes. split; [done|].
  rewrite (note_files _ _ _ _ (records_Return _ _ _ _ Hrs)).
  split; [done|].
  apply NoDup_fmap_2_strong.
  - intros x y [_ Hx]%list_elem_of_filter [_ Hy]%list_elem_of_filter [= H].
    rewrite sorted_Permutation in Hx, Hy.
    apply Hsep in Hx, Hy.
    rewrite (join_name _ _ Hx), (join_name _ _ Hy), !replace_char_app in H.
    apply (inj (String.app _)) in H.
    by apply (replace_char_inj "\"%char "/"%char).
  - apply NoDup_filter. by rewrite sorted_Permutation.
Qed.

End Script.

(** ** The sample directory *)

Lemma sample_notes :
  build_config_from_notes Sample.safe_load Sample.fs "notes"
  = Return (PDict [(PStr "notes", PList Sample.notes)]).
Proof. by vm_compute. Qed.

Lemma sample_listdir : listdir Sample.fs "notes" = Return Sample.entries.
Proof. by vm_compute. Defined.

Lemma sample_readable : readable Sample.fs "notes" Sample.entries.
Proof.
  intros name. unfold Sample.entries. rewrite !elem_of_cons, elem_of_nil.
  intros [-> | [-> | [-> | []]]] _; eexists; by vm_compute.
Defined.

(** The sort is by code point: [B.MD] comes before [a.md]. *)
Example sample_sorted : sorted Sample.entries = ["B.MD"; "a.md"; "c.txt"].
Proof. by vm_compute. Qed.

(** A name of dots and [md] keeps its extension. *)
Example splitext_dotfile :
  OsPath.splitext ".md" = (".md", "")
  /\ OsPath.splitext "a.b.md" = ("a.b", ".md").
Proof. by vm_compute. Qed.

(** The number among the tags of the sample is written as a number. *)
Example sample_tags_text :
  Json.iterencode (PList [PStr "x"; PInt 1]) 3
  = emit ("[" +:+ Json.newline_indent 4 +:+ Json.encode_basestring "x"
          +:+ "," +:+ Json.newline_indent 4 +:+ "1"
          +:+ Json.newline_indent 3 +:+ "]").
Proof. by vm_compute. Qed.

(** A value with no JSON form stops the writing where it stands. *)
Example date_stops_dump :
  Json.iterencode (PList [PInt 1; PObject "date"]) 0
  = ("[" +:+ Json.newline_indent 1 +:+ "1" +:+ "," +:+ Json.newline_indent 1,
     Some TypeError).
Proof. by vm_compute. Qed.

(** *** Where the code and the specification part *)


(** C5: a [---] inside a value closes the front matter, and a first line
    that goes on after [---] opens it. *)
Lemma delimiter_line_counterexample :
  parse_markdown_front_matter Sample.safe_load Sample.dashes_in_value
  = Return [(PStr "title", PStr "a")]
  /\ Claimed.front_matter Sample.safe_load Sample.dashes_in_value
     = [(PStr "title", PStr "a---b")]
  /\ parse_markdown_front_matter Sample.safe_load Sample.dashes_in_first_line
     = Return [(PStr "x", PInt 1)]
  /\ Claimed.front_matter Sample.safe_load Sample.dashes_in_first_line = []
  /\ parse_markdown_front_matter Sample.safe_load Sample.dashes_in_value
     <> Return (Claimed.front_matter Sample.safe_load Sample.dashes_in_value).
Proof. repeat split; by vm_compute. Qed.

(** C6: [file] comes before [links]. *)
Lemma field_order_counterexample :
  (note_record "notes" "B.MD" []).*1
  = [PStr "id"; PStr "title"; PStr "tags"; PStr "file"; PStr "links"]
  /\ (note_record "notes" "B.MD" []).*1 <> PStr <$> Claimed.field_order.
Proof. split; by vm_compute. Qed.

(** *** The theorems at the sample directory *)


Lemma one_per_file_witness :
  listdir Sample.fs "notes" = Return Sample.entries
  /\ readable Sample.fs "notes" Sample.entries
  /\ exists notes,
       build_config_from_notes Sample.safe_load Sample.fs "notes"
       = Return (PDict [(PStr "notes", PList notes)])
       /\ Forall2 (processed Sample.safe_load Sample.fs "notes")
            (filter is_md (sorted Sample.entries)) notes
       /\ Sorted String.le (filter is_md (sorted Sample.entries))
       /\ filter is_md (sorted Sample.entries) ≡ₚ filter is_md Sample.entries
       /\ length notes = length (filter is_md Sample.entries).
Proof.
  split; [exact sample_listdir|]. split; [exact sample_readable|].
  apply (build_config_from_notes_one_per_file
           Sample.safe_load Sample.fs "notes" Sample.entries
           sample_listdir sample_readable).
Defined.

Lemma parse_total_witness :
  exists meta : dict,
    parse_markdown_front_matter Sample.safe_load Sample.a_md = Return meta
    /\ (Str.startswith Sample.a_md "---" = false -> meta = [])
    /\ (length (Str.split Sample.a_md "---" 2) < 3 -> meta = [])
    /\ length (Str.split Sample.a_md "---" 2) <= 3
    /\ (forall a fm_text b,
          Str.startswith Sample.a_md "---" = true ->
          Str.split Sample.a_md "---" 2 = [a; fm_text; b] ->
          (forall e, Sample.safe_load fm_text = Raise e -> meta = [])
          /\ (forall v, Sample.safe_load fm_text = Return v ->
                        isinstance_dict v = false -> meta = [])
          /\ (forall d, Sample.safe_load fm_text = Return (PDict d) ->
                        meta = d)).
Proof. apply (parse_markdown_front_matter_total Sample.safe_load Sample.a_md). Defined.


Lemma main_without_notes_witness :
  isdir Sample.fs_without_notes "notes" = false
  /\ ending (main Sample.safe_load Sample.fs_without_notes)
     = Raise (SystemExit (message "notes"))
  /\ exit_status (main Sample.safe_load Sample.fs_without_notes) <> 0%Z
  /\ diagnostic (main Sample.safe_load Sample.fs_without_notes)
     = Some (message "notes")
  /\ stdout (main Sample.safe_load Sample.fs_without_notes) = ""
  /\ files (main Sample.safe_load Sample.fs_without_notes)
     = Sample.fs_without_notes
  /\ files (main Sample.safe_load Sample.fs_without_notes) !! "notes"
     = Sample.fs_without_notes !! "notes"
  /\ files (main Sample.safe_load Sample.fs_without_notes) !! "config.json"
     = Sample.fs_without_notes !! "config.json".
Proof.
  split; [by vm_compute|].
  apply (main_without_notes Sample.safe_load Sample.fs_without_notes).
  by vm_compute.
Defined.

Lemma main_deterministic_witness :
  Sample.fs !! "notes" = Some (Directory ["a.md"; "B.MD"; "c.txt"])
  /\ Sample.fs' !! "notes" = Some (Directory ["B.MD"; "a.md"; "c.txt"])
  /\ ["a.md"; "B.MD"; "c.txt"] ≡ₚ ["B.MD"; "a.md"; "c.txt"]
  /\ (forall name, name ∈ ["a.md"; "B.MD"; "c.txt"] ->
        read_text Sample.fs (OsPath.join "notes" name)
        = read_text Sample.fs' (OsPath.join "notes" name))
  /\ isdir Sample.fs "config.json" = isdir Sample.fs' "config.json"
  /\ ending (main Sample.safe_load Sample.fs)
     = ending (main Sample.safe_load Sample.fs')
  /\ stdout (main Sample.safe_load Sample.fs)
     = stdout (main Sample.safe_load Sample.fs')
  /\ (files (main Sample.safe_load Sample.fs) !! "config.json"
      = files (main Sample.safe_load Sample.fs') !! "config.json"
      \/ (files (main Sample.safe_load Sample.fs) = Sample.fs
          /\ files (main Sample.safe_load Sample.fs') = Sample.fs')).
Proof.
  assert (H1 : Sample.fs !! "notes" = Some (Directory ["a.md"; "B.MD"; "c.txt"]))
    by (by vm_compute).
  assert (H2 : Sample.fs' !! "notes"
               = Some (Directory ["B.MD"; "a.md"; "c.txt"]))
    by (by vm_compute).
  assert (H3 : ["a.md"; "B.MD"; "c.txt"] ≡ₚ ["B.MD"; "a.md"; "c.txt"])
    by apply perm_swap.
  assert (H4 : forall name, name ∈ ["a.md"; "B.MD"; "c.txt"] ->
            read_text Sample.fs (OsPath.join "notes" name)
            = read_text Sample.fs' (OsPath.join "notes" name)).
  { intros name. rewrite !elem_of_cons, elem_of_nil.
    intros [-> | [-> | [-> | []]]]; by vm_compute. }
  assert (H5 : isdir Sample.fs "config.json" = isdir Sample.fs' "config.json")
    by (by vm_compute).
  repeat (split; [assumption|]).
  apply (main_deterministic Sample.safe_load Sample.fs Sample.fs'
           ["a.md"; "B.MD"; "c.txt"] ["B.MD"; "a.md"; "c.txt"] H1 H2 H3 H4 H5).
Defined.


Lemma body_never_read_witness :
  Str.find Sample.a_front_matter "---" = None
  /\ parse_markdown_front_matter Sample.safe_load
       ("---" +:+ Sample.a_front_matter +:+ "---" +:+ "# Alpha")
     = parse_markdown_front_matter Sample.safe_load
         ("---" +:+ Sample.a_front_matter +:+ "---" +:+ "# Beta")
  /\ build_config_from_notes Sample.safe_load
       (<["notes/a.md" :=
            File ("---" +:+ Sample.a_front_matter +:+ "---" +:+ "# Alpha")]>
          Sample.fs) "notes"
     = build_config_from_notes Sample.safe_load
         (<["notes/a.md" :=
              File ("---" +:+ Sample.a_front_matter +:+ "---" +:+ "# Beta")]>
            Sample.fs) "notes".
Proof.
  split; [by vm_compute|].
  apply (body_never_read Sample.safe_load Sample.fs "notes" "notes/a.md"
           Sample.a_front_matter "# Alpha" "# Beta").
  by vm_compute.
Defined.

(** *** The further properties at the sample directories *)




Lemma main_read_error_witness :
  Sample.fs_unreadable !! "notes" = Some (Directory ["z.md"; "a.md"; "m.md"])
  /\ sorted ["z.md"; "a.md"; "m.md"] = ["a.md"] ++ "m.md" :: ["z.md"]
  /\ readable Sample.fs_unreadable "notes" ["a.md"]
  /\ is_md "m.md"
  /\ read_text Sample.fs_unreadable (OsPath.join "notes" "m.md")
     = Raise (Exception UnicodeDecodeError)
  /\ build_config_from_notes Sample.safe_load Sample.fs_unreadable "notes"
     = Raise (Exception UnicodeDecodeError)
  /\ main Sample.safe_load Sample.fs_unreadable
     = Run Sample.fs_unreadable "" (Raise (Exception UnicodeDecodeError)).
Proof.
  assert (H1 : Sample.fs_unreadable !! "notes"
               = Some (Directory ["z.md"; "a.md"; "m.md"]))
    by (by vm_compute).
  assert (H2 : sorted ["z.md"; "a.md"; "m.md"] = ["a.md"] ++ "m.md" :: ["z.md"])
    by (by vm_compute).
  assert (H3 : readable Sample.fs_unreadable "notes" ["a.md"]).
  { intros name. rewrite elem_of_cons, elem_of_nil.
    intros [-> | []] _. eexists. by vm_compute. }
  assert (H4 : is_md "m.md") by (by vm_compute).
  assert (H5 : read_text Sample.fs_unreadable (OsPath.join "notes" "m.md")
               = Raise (Exception UnicodeDecodeError))
    by (by vm_compute).
  repeat (split; [assumption|]).
  apply (main_read_error Sample.safe_load Sample.fs_unreadable
           ["z.md"; "a.md"; "m.md"] ["a.md"] ["z.md"] "m.md"
           (Exception UnicodeDecodeError) H1 H2 H3 H4 H5).
Defined.


Lemma sample_same_fields (name : string) :
  name ∈ Sample.entries -> is_md name ->
  same_fields Sample.safe_load
    (read_text Sample.fs (OsPath.join "notes" name))
    (read_text Sample.fs' (OsPath.join "notes" name)).
Proof.
  unfold Sample.entries. rewrite !elem_of_cons, elem_of_nil.
  intros [-> | [-> | [-> | []]]] _; by vm_compute.
Defined.

Lemma build_config_from_notes_reads_witness :
  listdir Sample.fs "notes" = Return Sample.entries
  /\ listdir Sample.fs' "notes" = Return ["B.MD"; "a.md"; "c.txt"]
  /\ Sample.entries ≡ₚ ["B.MD"; "a.md"; "c.txt"]
  /\ (forall name, name ∈ Sample.entries -> is_md name ->
        same_fields Sample.safe_load
          (read_text Sample.fs (OsPath.join "notes" name))
          (read_text Sample.fs' (OsPath.join "notes" name)))
  /\ build_config_from_notes Sample.safe_load Sample.fs "notes"
     = build_config_from_notes Sample.safe_load Sample.fs' "notes".
Proof.
  assert (H2 : listdir Sample.fs' "notes" = Return ["B.MD"; "a.md"; "c.txt"])
    by (by vm_compute).
  assert (H3 : Sample.entries ≡ₚ ["B.MD"; "a.md"; "c.txt"])
    by apply perm_swap.
  split; [exact sample_listdir|]. split; [exact H2|]. split; [exact H3|].
  split; [exact sample_same_fields|].
  apply (build_config_from_notes_reads Sample.safe_load Sample.fs Sample.fs'
           "notes" Sample.entries ["B.MD"; "a.md"; "c.txt"]
           sample_listdir H2 H3 sample_same_fields).
Defined.

Lemma splitext_root_nonempty_witness :
  "a.md" <> ""
  /\ fst (OsPath.splitext "a.md") <> ""
  /\ Str.startswith "a.md" (fst (OsPath.splitext "a.md")) = true
  /\ (forall notes_dir meta,
        isinstance_str (dict_get meta "id") = false ->
        dict_get (note_record notes_dir "a.md" meta) "id"
        = PStr (fst (OsPath.splitext "a.md"))).
Proof.
  split; [done|]. by apply (splitext_root_nonempty "a.md").
Defined.

Lemma file_fields_distinct_witness :
  listdir Sample.fs "notes" = Return Sample.entries
  /\ readable Sample.fs "notes" Sample.entries
  /\ NoDup Sample.entries
  /\ (forall name, name ∈ Sample.entries ->
        Str.mem_char OsPath.sep name = false)
  /\ exists notes,
       build_config_from_notes Sample.safe_load Sample.fs "notes"
       = Return (PDict [(PStr "notes", PList notes)])
       /\ note_file <$> notes
          = (fun name => PStr (Str.replace_char "\"%char "/"%char
                                 (OsPath.join "notes" name)))
            <$> filter is_md (sorted Sample.entries)
       /\ NoDup (note_file <$> notes).
Proof.
  assert (H3 : NoDup Sample.entries)
    by (apply (bool_decide_unpack _); by vm_compute).
  assert (H4 : forall name, name ∈ Sample.entries ->
                 Str.mem_char OsPath.sep name = false).
  { intros name. unfold Sample.entries. rewrite !elem_of_cons, elem_of_nil.
    intros [-> | [-> | [-> | []]]]; by vm_compute. }
  split; [exact sample_listdir|]. split; [exact sample_readable|].
  split; [exact H3|]. split; [exact H4|].
  apply (file_fields_distinct Sample.safe_load Sample.fs "notes"
           Sample.entries sample_listdir sample_readable H3 H4).
Defined.

Lemma front_matter_text_delimited_witness :
  front_matter_text Sample.a_md = Some Sample.a_front_matter
  /\ Str.find Sample.a_front_matter "---" = None
  /\ (exists body,
        Sample.a_md = "---" +:+ Sample.a_front_matter +:+ "---" +:+ body)
  /\ parse_markdown_front_matter Sample.safe_load Sample.a_md
     = Return (load_mapping Sample.safe_load Sample.a_front_matter).
Proof.
  assert (H : front_matter_text Sample.a_md = Some Sample.a_front_matter)
    by (by vm_compute).
  split; [exact H|].
  apply (front_matter_text_delimited Sample.safe_load Sample.a_md
           Sample.a_front_matter H).
Defined.

Lemma main_no_markdown_witness :
  Sample.fs_no_md !! "notes" = Some (Directory ["readme.txt"; "img"])
  /\ (forall name, name ∈ ["readme.txt"; "img"] -> ~ is_md name)
  /\ isdir Sample.fs_no_md "config.json" = false
  /\ main Sample.safe_load Sample.fs_no_md
     = Run (<["config.json" :=
                File ("{" +:+ Str.newline +:+ "  "
                      +:+ Json.encode_basestring "notes" +:+ ": []"
                      +:+ Str.newline +:+ "}")]> Sample.fs_no_md)
           ("Fichier config.json généré avec 0 notes." +:+ Str.newline)
           (Return tt).
Proof.
  assert (H1 : Sample.fs_no_md !! "notes"
               = Some (Directory ["readme.txt"; "img"]))
    by (by vm_compute).
  assert (H2 : forall name, name ∈ ["readme.txt"; "img"] -> ~ is_md name).
  { intros name. rewrite !elem_of_cons, elem_of_nil.
    intros [-> | [-> | []]] H; vm_compute in H; discriminate H. }
  assert (H3 : isdir Sample.fs_no_md "config.json" = false)
    by (by vm_compute).
  repeat (split; [assumption|]).
  apply (main_no_markdown Sample.safe_load Sample.fs_no_md
           ["readme.txt"; "img"] H1 H2 H3).
Defined.

